(** * rpc/oauth/web_oauth.go: the web OAuth [rpc.AuthHandler]

    A shallow embedding of package [oauth] (src/rpc/oauth/web_oauth.go) and
    the properties of its claims type, its key resolver, its handler methods
    and its token issuer.

    Go objects reached through pointers ([*webOAuthHandler],
    [*webOAuthClaims]) live in a store; the methods are computations over a
    state that also carries the state of the external collaborators (key
    provider, entity verifier, clock) and a log of the calls made to them. *)

From Stdlib Require Import ZArith.
From stdpp Require Import base option strings pretty list gmap.

Local Open Scope Z_scope.
Local Open Scope string_scope.

(** ** google.golang.org/grpc/codes *)

Inductive codes_Code : Set :=
| codes_OK | codes_Canceled | codes_Unknown | codes_InvalidArgument
| codes_DeadlineExceeded | codes_NotFound | codes_AlreadyExists
| codes_PermissionDenied | codes_ResourceExhausted
| codes_FailedPrecondition | codes_Aborted | codes_OutOfRange
| codes_Unimplemented | codes_Internal | codes_Unavailable
| codes_DataLoss | codes_Unauthenticated.

(** ** context *)

(** A [context.Context]: one of the two empty roots, or a context derived
    from a parent by a deadline, a cancellation handle or a value. *)
Inductive context_Context : Set :=
| context_Background
| context_TODO
| context_WithDeadline (parent : context_Context) (deadline : Z)
| context_WithCancel (parent : context_Context) (handle : positive)
| context_WithValue (parent : context_Context) (key val : string).

(** The empty contexts: no deadline, no cancellation, no values. *)
Definition context_empty (ctx : context_Context) : bool :=
  match ctx with
  | context_Background | context_TODO => true
  | _ => false
  end.

(** ** crypto/rsa *)

Record rsa_PublicKey : Set := { rsa_N : Z; rsa_E : Z }.

Record rsa_PrivateKey : Set :=
  { rsa_Public : rsa_PublicKey; rsa_D : Z; rsa_Primes : list Z }.

(** ** github.com/golang-jwt/jwt/v4 (the parts web_oauth.go calls) *)

Inductive jwt_SigningMethod : Set :=
| jwt_SigningMethodHS256 | jwt_SigningMethodHS384 | jwt_SigningMethodHS512
| jwt_SigningMethodRS256 | jwt_SigningMethodRS384 | jwt_SigningMethodRS512
| jwt_SigningMethodES256 | jwt_SigningMethodES384 | jwt_SigningMethodES512
| jwt_SigningMethodPS256 | jwt_SigningMethodPS384 | jwt_SigningMethodPS512
| jwt_SigningMethodEdDSA | jwt_SigningMethodNone.

Definition jwt_Alg (m : jwt_SigningMethod) : string :=
  match m with
  | jwt_SigningMethodHS256 => "HS256"
  | jwt_SigningMethodHS384 => "HS384"
  | jwt_SigningMethodHS512 => "HS512"
  | jwt_SigningMethodRS256 => "RS256"
  | jwt_SigningMethodRS384 => "RS384"
  | jwt_SigningMethodRS512 => "RS512"
  | jwt_SigningMethodES256 => "ES256"
  | jwt_SigningMethodES384 => "ES384"
  | jwt_SigningMethodES512 => "ES512"
  | jwt_SigningMethodPS256 => "PS256"
  | jwt_SigningMethodPS384 => "PS384"
  | jwt_SigningMethodPS512 => "PS512"
  | jwt_SigningMethodEdDSA => "EdDSA"
  | jwt_SigningMethodNone => "none"
  end.

(** Instants ([time.Time]) and [jwt.NumericDate]s are integers. *)
Definition time_Time : Set := Z.
Definition jwt_NumericDate : Set := Z.

(** [jwt.RegisteredClaims]; the three dates are pointers, [None] is nil. *)
Record jwt_RegisteredClaims : Set := {
  Issuer : string;
  Subject : string;
  Audience : list string;
  ExpiresAt : option jwt_NumericDate;
  NotBefore : option jwt_NumericDate;
  IssuedAt : option jwt_NumericDate;
  ID : string;
}.

(** [subtle.ConstantTimeCompare] on the bytes of two strings: 1 when they
    are equal, 0 otherwise. *)
Definition subtle_ConstantTimeCompare (x y : string) : Z :=
  if decide (x = y) then 1 else 0.

(** One round of the loop of [verifyAud] over the audience entries. *)
Definition verifyAud_step (cmp : string) (acc : bool * string) (a : string)
  : bool * string :=
  let '(result, stringClaims) := acc in
  (if decide (subtle_ConstantTimeCompare a cmp ≠ 0) then true else result,
   stringClaims +:+ a).

(** [verifyAud] of golang-jwt v4 (claims.go), which
    [RegisteredClaims.VerifyAudience] calls on the audience list: an
    empty list, or a list of empty strings only, satisfies the check exactly
    when the claim is not required. *)
Definition jwt_verifyAud (aud : list string) (cmp : string) (required : bool)
  : bool :=
  if decide (length aud = 0%nat) then negb required
  else
    let '(result, stringClaims) := foldl (verifyAud_step cmp) (false, "") aud in
    if decide (String.length stringClaims = 0%nat) then negb required
    else result.

Definition jwt_VerifyAudience (c : jwt_RegisteredClaims) (cmp : string)
  (req : bool) : bool :=
  jwt_verifyAud (Audience c) cmp req.

(** ** go.viam.com/utils/rpc: the types web_oauth.go uses *)

Definition rpc_CredentialsType : Set := string.

(** [rpc.JWTClaims], with the fields web_oauth.go reads and writes. A nil
    [AuthMetadata] map reads as the empty map. *)
Record rpc_JWTClaims : Type := {
  RegisteredClaims : jwt_RegisteredClaims;
  CredentialsType : rpc_CredentialsType;
  AuthMetadata : gmap string string;
}.

(** The zero values of the two structs. *)
Definition jwt_RegisteredClaims_zero : jwt_RegisteredClaims :=
  {| Issuer := ""; Subject := ""; Audience := []; ExpiresAt := None;
     NotBefore := None; IssuedAt := None; ID := "" |}.

Definition rpc_JWTClaims_zero : rpc_JWTClaims :=
  {| RegisteredClaims := jwt_RegisteredClaims_zero;
     CredentialsType := "";
     AuthMetadata := ∅ |}.

(** ** package oauth *)

Definition CredentialsTypeOAuthWeb : rpc_CredentialsType := "oauth-web-auth".

(** Addresses of heap objects. *)
Definition loc : Set := positive.

(** [webOAuthClaims]. *)
Record webOAuthClaims : Type := {
  JWTClaims : rpc_JWTClaims;
  allowedAudience : string;
}.

Section oauth.

(** The state of the world outside this package (the key provider's key
    set, the identity service behind the entity verifier, the clock), the
    Go values of dynamic types that this package only passes around, and
    the errors that its collaborators produce. *)
Context {World Dyn ExtErr : Type}.

(** Go [error] values; [None : option error] is the nil error. *)
Inductive error : Type :=
| errors_New (msg : string)
| status_Error (c : codes_Code) (msg : string)
| collaborator_error (e : ExtErr).

(** Go [interface{}] values. *)
Inductive any : Type :=
| any_nil
| any_string (s : string)
| any_PublicKey (p : option rsa_PublicKey)
| any_dyn (d : Dyn).

(** The type assertion [v.(string)] in its comma-ok form. *)
Definition assert_string (v : any) : string * bool :=
  match v with
  | any_string s => (s, true)
  | _ => ("", false)
  end.

(** Indexing a [map[string]interface{}]: a missing key reads as nil. *)
Definition index_any (m : gmap string any) (k : string) : any :=
  default any_nil (m !! k).

(** [jwks.KeyProvider]: the lookup, as a function of the outside world. *)
Record jwks_KeyProvider : Type := {
  LookupKey : context_Context → string → World →
              (option rsa_PublicKey * option error) * World;
}.

(** [WebOAuthOptions]. A nil [KeyProvider] or [EntityVerifier] is [None]. *)
Record WebOAuthOptions : Type := {
  AllowedAudience : string;
  KeyProvider : option jwks_KeyProvider;
  EntityVerifier : option (context_Context → string → World →
                           (any * option error) * World);
  Logger : any;
}.

(** [webOAuthHandler] embeds the options. *)
Record webOAuthHandler : Type := { Options : WebOAuthOptions }.

(** What a [jwt.Token] holds in its [Claims] field here: a [rpc.JWTClaims]
    value (issuing) or a pointer to a [webOAuthClaims] (verifying). *)
Inductive jwt_Claims : Type :=
| Claims_JWTClaims (c : rpc_JWTClaims)
| Claims_webOAuthClaims (c : loc).

(** [jwt.Token]; the fields web_oauth.go leaves at their zero value
    ([Raw], [Signature], [Valid]) are left out. *)
Record jwt_Token : Type := {
  Header : gmap string any;
  Claims : jwt_Claims;
  Method : option jwt_SigningMethod;
}.

(** *** Code of other packages that web_oauth.go calls *)

(** [rpc.JWTClaims.Valid], which may read the clock. *)
Variable rpc_JWTClaims_Valid : rpc_JWTClaims → World → option error * World.

(** [Token.SignedString] of package jwt on a key that is not nil:
    serialises and signs. *)
Variable jwt_SignedString :
  jwt_Token → rsa_PrivateKey → string * option error.

(** [time.Now] and [jwt.NewNumericDate]. *)
Variable time_Now : World → time_Time.
Variable jwt_NewNumericDate : time_Time → jwt_NumericDate.

(** *** State and computations *)

(** The calls this package makes to its collaborators. *)
Inductive Call : Type :=
| Call_LookupKey (ctx : context_Context) (kid : string)
| Call_EntityVerifier (ctx : context_Context) (entity : string).

Record State : Type := {
  world : World;
  calls : list Call;
  handlers : gmap loc webOAuthHandler;
  claimsHeap : gmap loc webOAuthClaims;
}.

(** A computation returns a value and a new state, or panics. *)
Inductive outcome (A : Type) : Type :=
| Returns (v : A) (s : State)
| Panics.
Arguments Returns {A} v s.
Arguments Panics {A}.

Definition M (A : Type) : Type := State → outcome A.

Definition ret {A} (v : A) : M A := fun s => Returns v s.

Definition bind {A B} (m : M A) (k : A → M B) : M B :=
  fun s => match m s with
           | Returns v s' => k v s'
           | Panics => Panics
           end.

Definition panic {A} : M A := fun _ => Panics.

Notation "x <- m ;; k" := (bind m (fun x => k))
  (at level 100, m at next level, right associativity).

(** Dereferencing a handler or a claims pointer; a pointer to nothing is
    the nil pointer. *)
Definition load_handler (a : loc) : M webOAuthHandler :=
  fun s => match handlers s !! a with
           | Some h => Returns h s
           | None => Panics
           end.

Definition load_claims (c : loc) : M webOAuthClaims :=
  fun s => match claimsHeap s !! c with
           | Some v => Returns v s
           | None => Panics
           end.

(** [&webOAuthClaims{...}]: a new object at an address not in use. *)
Definition new_claims (v : webOAuthClaims) : M loc :=
  fun s =>
    let c := fresh (dom (claimsHeap s)) in
    Returns c {| world := world s; calls := calls s;
                 handlers := handlers s;
                 claimsHeap := <[c := v]> (claimsHeap s) |}.

(** Code of another package run on the outside world. *)
Definition run {A} (f : World → A * World) : M A :=
  fun s =>
    let '(v, w) := f (world s) in
    Returns v {| world := w; calls := calls s;
                 handlers := handlers s; claimsHeap := claimsHeap s |}.

(** An entry in the log of calls. *)
Definition log (c : Call) : M unit :=
  fun s => Returns tt {| world := world s; calls := calls s ++ [c];
                         handlers := handlers s;
                         claimsHeap := claimsHeap s |}.

(** Calls of the two collaborators: entered in the log, then run. *)
Definition call_LookupKey (kp : jwks_KeyProvider) (ctx : context_Context)
  (kid : string) : M (option rsa_PublicKey * option error) :=
  _ <- log (Call_LookupKey ctx kid) ;;
  run (LookupKey kp ctx kid).

Definition call_EntityVerifier
  (ev : context_Context → string → World → (any * option error) * World)
  (ctx : context_Context) (entity : string) : M (any * option error) :=
  _ <- log (Call_EntityVerifier ctx entity) ;;
  run (ev ctx entity).

(** *** webOAuthClaims *)

Definition Entity (c : loc) : M (string * option error) :=
  cl <- load_claims c ;;
  match AuthMetadata (JWTClaims cl) !! "email" with
  | Some email => ret (email, None)
  | None => ret ("", Some (errors_New "missing email in rpc_auth_md"))
  end.

Definition Valid (c : loc) : M (option error) :=
  cl <- load_claims c ;;
  if negb (jwt_VerifyAudience (RegisteredClaims (JWTClaims cl))
             (allowedAudience cl) true)
  then ret (Some (errors_New "invalid aud"))
  else run (rpc_JWTClaims_Valid (JWTClaims cl)).

(** *** webOAuthHandler *)

Definition Authenticate (a : loc) (ctx : context_Context)
  (entity payload : string) : M (option (gmap string string) * option error) :=
  ret (None, Some (status_Error codes_Unimplemented
                     "not implemented with webauth")).

Definition VerifyEntity (a : loc) (ctx : context_Context) (entity : string)
  : M (any * option error) :=
  h <- load_handler a ;;
  match EntityVerifier (Options h) with
  | None =>
      ret (any_nil, Some (status_Error codes_Internal
                            "invalid verify entity configuration"))
  | Some ev => call_EntityVerifier ev ctx entity
  end.

Definition CreateClaims (a : loc) : M loc :=
  h <- load_handler a ;;
  new_claims {| JWTClaims := rpc_JWTClaims_zero;
                allowedAudience := AllowedAudience (Options h) |}.

Definition TokenVerificationKey (a : loc) (token : jwt_Token)
  : M (any * option error) :=
  let '(keyID, ok) := assert_string (index_any (Header token) "kid") in
  if negb ok then ret (any_nil, Some (errors_New "kid not valid"))
  else
    h <- load_handler a ;;
    match KeyProvider (Options h) with
    | None => panic
    | Some kp =>
        r <- call_LookupKey kp context_TODO keyID ;;
        ret (any_PublicKey (fst r), snd r)
    end.

(** *** SignWebAuthAccessToken *)

(** The claims literal inside the token that [SignWebAuthAccessToken]
    builds, given the reading of the clock. *)
Definition accessClaims (now : time_Time) (entity aud iss : string)
  : rpc_JWTClaims :=
  {| RegisteredClaims :=
       {| Audience := [aud];
          Issuer := iss;
          Subject := entity;
          IssuedAt := Some (jwt_NewNumericDate now);
          ExpiresAt := None; NotBefore := None; ID := "" |};
     CredentialsType := CredentialsTypeOAuthWeb;
     AuthMetadata := <["email" := entity]> ∅ |}.

(** The token literal. *)
Definition accessToken (now : time_Time) (entity aud iss keyID : string)
  : jwt_Token :=
  {| Header := <["typ" := any_string "JWT"]>
                 (<["alg" := any_string (jwt_Alg jwt_SigningMethodRS256)]>
                    (<["kid" := any_string keyID]> ∅));
     Claims := Claims_JWTClaims (accessClaims now entity aud iss);
     Method := Some jwt_SigningMethodRS256 |}.

(** The key is a pointer; on the nil key the RS256 signer inside
    [SignedString] dereferences it and panics. *)
Definition SignWebAuthAccessToken (key : option rsa_PrivateKey)
  (entity aud iss keyID : string) : M (string * option error) :=
  fun s =>
    let token := accessToken (time_Now (world s)) entity aud iss keyID in
    match key with
    | Some k => Returns (jwt_SignedString token k) s
    | None => Panics
    end.

(** *** WithWebOAuthTokenAuthHandler *)

(** [rpc.ServerOption] values and [rpc.WithAuthHandler], of package rpc:
    the option that registers a handler for a credentials type. *)
Context {ServerOption : Type}.
Variable rpc_WithAuthHandler : rpc_CredentialsType → loc → ServerOption.

(** [&webOAuthHandler{opts}]: a new handler, holding a copy of the options,
    at an address not in use. *)
Definition new_handler (h : webOAuthHandler) : M loc :=
  fun s =>
    let a := fresh (dom (handlers s)) in
    Returns a {| world := world s; calls := calls s;
                 handlers := <[a := h]> (handlers s);
                 claimsHeap := claimsHeap s |}.

Definition WithWebOAuthTokenAuthHandler (opts : WebOAuthOptions)
  : M ServerOption :=
  authHandler <- new_handler {| Options := opts |} ;;
  ret (rpc_WithAuthHandler CredentialsTypeOAuthWeb authHandler).

(** *** The protocol layer around the handler *)

(** Modelled from the spec: the token parser of the rpc protocol layer
    (package rpc, not under src/), which "asks the Auth Handler to produce
    an empty Claims object, fills it from the token payload": decoding the
    payload into the claims object at [c] sets its exported fields and
    leaves [allowedAudience], which is not part of the wire payload. *)
Definition fillClaims (c : loc) (payload : rpc_JWTClaims) : M unit :=
  cl <- load_claims c ;;
  fun s =>
    Returns tt {| world := world s; calls := calls s;
                  handlers := handlers s;
                  claimsHeap :=
                    <[c := {| JWTClaims := payload;
                              allowedAudience := allowedAudience cl |}]>
                      (claimsHeap s) |}.

(** Modelled from the spec: the same parser, from [CreateClaims] to the
    filled claims object. *)
Definition decodeClaims (a : loc) (payload : rpc_JWTClaims) : M loc :=
  c <- CreateClaims a ;;
  _ <- fillClaims c payload ;;
  ret c.

(** The error of a failed base validation. *)
Variable jwt_ValidationError : error.

(** Modelled from the spec: [rpc.JWTClaims.Valid] (package rpc, not under
    src/), "the base claim type's own structural validation (e.g.,
    expiry-not-passed, issued-at sanity)": an expiry that is set lies
    ahead of the clock, an issued-at date that is set does not; the clock
    is read and nothing is changed. *)
Definition JWTClaims_Valid_spec (c : rpc_JWTClaims) (w : World)
  : option error * World :=
  let now := time_Now w in
  let expiry_not_passed :=
    match ExpiresAt (RegisteredClaims c) with
    | Some exp => (now <? exp)%Z
    | None => true
    end in
  let issued_at_sane :=
    match IssuedAt (RegisteredClaims c) with
    | Some iat => (iat <=? now)%Z
    | None => true
    end in
  (if expiry_not_passed && issued_at_sane then None
   else Some jwt_ValidationError, w).

(** Modelled from the spec: one verification attempt of the protocol layer
    (package rpc, not under src/) on a parsed token with the given payload,
    up to the extraction of the entity: claims created and filled, key
    resolved, [Valid], then [Entity], the first failure ending the attempt.
    The check of the signature against the resolved key is cryptography
    outside this model. *)
Definition verifyToken (a : loc) (token : jwt_Token) (payload : rpc_JWTClaims)
  : M (string * option error) :=
  c <- decodeClaims a payload ;;
  k <- TokenVerificationKey a
         {| Header := Header token; Claims := Claims_webOAuthClaims c;
            Method := Method token |} ;;
  match k.2 with
  | Some err => ret ("", Some err)
  | None =>
      v <- Valid c ;;
      match v with
      | Some err => ret ("", Some err)
      | None => Entity c
      end
  end.

(** The value a computation returns, if it returns. *)
Definition result {A} (o : outcome A) : option A :=
  match o with
  | Returns v _ => Some v
  | Panics => None
  end.

(** A claims object with another subject. *)
Definition with_Subject (subject : string) (cl : webOAuthClaims)
  : webOAuthClaims :=
  let j := JWTClaims cl in
  let r := RegisteredClaims j in
  {| JWTClaims :=
       {| RegisteredClaims :=
            {| Issuer := Issuer r; Subject := subject;
               Audience := Audience r; ExpiresAt := ExpiresAt r;
               NotBefore := NotBefore r; IssuedAt := IssuedAt r;
               ID := ID r |};
          CredentialsType := CredentialsType j;
          AuthMetadata := AuthMetadata j |};
     allowedAudience := allowedAudience cl |}.

End oauth.

Arguments Returns {World Dyn ExtErr A} v s.
Arguments Panics {World Dyn ExtErr A}.


Notation "x <- m ;; k" := (bind m (fun x => k))
  (at level 100, m at next level, right associativity).

(** ** A concrete deployment

    The outside world is the reading of the clock, in seconds; opaque Go
    values and collaborator errors are described by strings. *)

Definition ex_any : Type := @any string.
Definition ex_error : Type := @error string.

Definition ex_key : rsa_PublicKey := {| rsa_N := 3233; rsa_E := 17 |}.

(** A key provider that knows the key "k1" only. *)
Definition ex_provider : @jwks_KeyProvider Z string :=
  {| LookupKey := fun _ kid w =>
       if decide (kid = "k1") then ((Some ex_key, None), w)
       else ((None, Some (collaborator_error "key not found")), w) |}.

(** An entity verifier that accepts every entity and returns it. *)
Definition ex_verifier (ctx : context_Context) (entity : string) (w : Z)
  : (ex_any * option ex_error) * Z :=
  ((any_string entity, None), w).

(** A base validation in the manner of the jwt library: the dates that are
    set are compared with the clock. *)
Definition ex_reached (w : Z) (d : option jwt_NumericDate) : bool :=
  match d with
  | Some t => (t <=? w)%Z
  | None => true
  end.

Definition ex_ahead (w : Z) (d : option jwt_NumericDate) : bool :=
  match d with
  | Some t => (w <? t)%Z
  | None => true
  end.

Definition ex_base_Valid (c : rpc_JWTClaims) (w : Z)
  : option ex_error * Z :=
  let r := RegisteredClaims c in
  (if ex_ahead w (ExpiresAt r) && ex_reached w (IssuedAt r)
      && ex_reached w (NotBefore r)
   then None else Some (collaborator_error "token is not valid"), w).

(** A toy signer. The text it signs names the algorithm, the key id, the
    issuer, the subject and the audiences of the token; the compact form is
    that text and a number computed from it and the key. A token without a
    string "alg" and "kid", or whose claims are not a value, is refused. *)
Definition ex_signing_text (t : @jwt_Token string) : option string :=
  match Header t !! "alg", Header t !! "kid", Claims t with
  | Some (any_string alg), Some (any_string kid), Claims_JWTClaims c =>
      let r := RegisteredClaims c in
      Some (alg +:+ ":" +:+ kid +:+ "." +:+ Issuer r +:+ ":" +:+ Subject r
            +:+ ":" +:+ String.concat "," (Audience r))
  | _, _, _ => None
  end.

Definition ex_SignedString (t : @jwt_Token string) (k : rsa_PrivateKey)
  : string * option ex_error :=
  match ex_signing_text t with
  | Some text =>
      (text +:+ "."
       +:+ pretty ((Z.of_nat (String.length text) * rsa_D k)
                   `mod` rsa_N (rsa_Public k))%Z,
       None)
  | None => ("", Some (collaborator_error "token cannot be signed"))
  end.

Definition ex_private_key : rsa_PrivateKey :=
  {| rsa_Public := ex_key; rsa_D := 2753; rsa_Primes := [61; 53] |}.

Definition ex_Now (w : Z) : time_Time := w.
Definition ex_NewNumericDate (t : time_Time) : jwt_NumericDate := t.

Definition ex_handler : @webOAuthHandler Z string string :=
  {| Options := {| AllowedAudience := "svc-a";
                   KeyProvider := Some ex_provider;
                   EntityVerifier := Some ex_verifier;
                   Logger := any_nil |} |}.

(** The same handler without an entity verifier. *)
Definition ex_handler_unverified : @webOAuthHandler Z string string :=
  {| Options := {| AllowedAudience := "svc-a";
                   KeyProvider := Some ex_provider;
                   EntityVerifier := None;
                   Logger := any_nil |} |}.

Definition ex_payload : rpc_JWTClaims :=
  accessClaims ex_NewNumericDate 1700000000 "u@example.com" "svc-a" "idp".

(** Claims decoded by [ex_handler], and by a handler for "svc-b". *)
Definition ex_claims : webOAuthClaims :=
  {| JWTClaims := ex_payload; allowedAudience := "svc-a" |}.

Definition ex_claims_b : webOAuthClaims :=
  {| JWTClaims := ex_payload; allowedAudience := "svc-b" |}.

(** Claims for the right audience without the "email" attribute. *)
Definition ex_claims_anonymous : webOAuthClaims :=
  {| JWTClaims :=
       {| RegisteredClaims := RegisteredClaims ex_payload;
          CredentialsType := CredentialsTypeOAuthWeb;
          AuthMetadata := ∅ |};
     allowedAudience := "svc-a" |}.

Definition ex_state : @State Z string string :=
  {| world := 1700000060;
     calls := [];
     handlers := <[1%positive := ex_handler]>
                   (<[2%positive := ex_handler_unverified]> ∅);
     claimsHeap := <[1%positive := ex_claims]>
                     (<[2%positive := ex_claims_b]>
                        (<[3%positive := ex_claims_anonymous]> ∅)) |}.

Definition ex_token : @jwt_Token string :=
  accessToken ex_NewNumericDate 1700000000 "u@example.com" "svc-a" "idp" "k1".

(** A token whose header has no "kid". *)
Definition ex_token_no_kid : @jwt_Token string :=
  {| Header := <["typ" := any_string "JWT"]> ∅;
     Claims := Claims_JWTClaims ex_payload;
     Method := Some jwt_SigningMethodRS256 |}.

(** *** More of the deployment: other handlers, claims and tokens *)

(** A handler configured without a key provider. *)
Definition ex_handler_no_provider : @webOAuthHandler Z string string :=
  {| Options := {| AllowedAudience := "svc-a";
                   KeyProvider := None;
                   EntityVerifier := Some ex_verifier;
                   Logger := any_nil |} |}.

(** Claims with the given audience list and nothing else. *)
Definition ex_claims_aud (aud : list string) (allowed : string)
  : webOAuthClaims :=
  {| JWTClaims :=
       {| RegisteredClaims :=
            {| Issuer := "idp"; Subject := "u123"; Audience := aud;
               ExpiresAt := None; NotBefore := None; IssuedAt := None;
               ID := "" |};
          CredentialsType := CredentialsTypeOAuthWeb;
          AuthMetadata := <["email" := "u@example.com"]> ∅ |};
     allowedAudience := allowed |}.

Definition ex_state_edge : @State Z string string :=
  {| world := 1700000060;
     calls := [];
     handlers := <[1%positive := ex_handler]>
                   (<[3%positive := ex_handler_no_provider]> ∅);
     claimsHeap :=
       <[1%positive := ex_claims_aud [] "svc-a"]>
         (<[2%positive := ex_claims_aud [""] ""]>
            (<[3%positive := ex_claims_aud ["svc-b"; "svc-a"] "svc-a"]>
               (<[4%positive :=
                    {| JWTClaims :=
                         accessClaims ex_NewNumericDate 1700000000
                           "u@example.com" "" "idp";
                       allowedAudience := "" |}]> ∅))) |}.

(** A token with the key id of [ex_token] and nothing else in common. *)
Definition ex_token_other : @jwt_Token string :=
  {| Header := <["alg" := any_string "none"]>
                 (<["kid" := any_string "k1"]> ∅);
     Claims := Claims_webOAuthClaims 3%positive;
     Method := Some jwt_SigningMethodNone |}.

(** The deployment with the clock a minute and a second back. *)
Definition ex_state_early : @State Z string string :=
  {| world := 1699999999;
     calls := [];
     handlers := handlers ex_state;
     claimsHeap := claimsHeap ex_state |}.

(** The base validation modelled from the spec, at the deployment. *)
Definition ex_spec_Valid : rpc_JWTClaims → Z → option ex_error * Z :=
  JWTClaims_Valid_spec ex_Now (collaborator_error "token is not valid").

(** The option that registers a handler, as the pair it was made of. *)
Definition ex_WithAuthHandler (forType : rpc_CredentialsType) (a : loc)
  : rpc_CredentialsType * loc :=
  (forType, a).

(** ** Properties *)

Section properties.

Context {World Dyn ExtErr : Type}.

(** The code of other packages, as in the definitions above. *)
Variable rpc_JWTClaims_Valid :
  rpc_JWTClaims → World → option (@error ExtErr) * World.
Variable jwt_SignedString :
  @jwt_Token Dyn → rsa_PrivateKey → string * option (@error ExtErr).
Variable time_Now : World → time_Time.
Variable jwt_NewNumericDate : time_Time → jwt_NumericDate.

Abbreviation State := (@State World Dyn ExtErr).
Abbreviation M := (@M World Dyn ExtErr).
Abbreviation webOAuthHandler := (@webOAuthHandler World Dyn ExtErr).
Abbreviation jwks_KeyProvider := (@jwks_KeyProvider World ExtErr).
Abbreviation jwt_Token := (@jwt_Token Dyn).
Abbreviation any := (@any Dyn).
Abbreviation error := (@error ExtErr).
Abbreviation result := (@result World Dyn ExtErr _).
Abbreviation accessToken := (@accessToken Dyn).

(** *** The audience check of the jwt library *)

Lemma ConstantTimeCompare_ne0 (x y : string) :
  subtle_ConstantTimeCompare x y ≠ 0 → x = y.
Proof.
  unfold subtle_ConstantTimeCompare. case_decide as Heq; [done|].
  intros Hne. by destruct Hne.
Qed.

Lemma verifyAud_loop_result (cmp : string) (aud : list string) :
  ∀ (result : bool) (stringClaims : string),
    (foldl (verifyAud_step cmp) (result, stringClaims) aud).1 = true →
    result = true ∨ cmp ∈ aud.
Proof.
  induction aud as [|a aud IH]; intros result stringClaims; simpl.
  - by left.
  - intros H. apply IH in H as [H|H].
    + case_decide as Hcmp; [|by left].
      right. apply ConstantTimeCompare_ne0 in Hcmp as ->.
      apply list_elem_of_here.
    + right. by apply list_elem_of_further.
Qed.

(** A required audience that the check accepts is one of the entries. *)
Lemma jwt_verifyAud_required_elem (aud : list string) (cmp : string) :
  jwt_verifyAud aud cmp true = true → cmp ∈ aud.
Proof.
  unfold jwt_verifyAud. case_decide; [done|].
  destruct (foldl _ _ aud) as [result stringClaims] eqn:Hloop.
  case_decide; [done|]. intros ->.
  destruct (verifyAud_loop_result cmp aud false "") as [?|?]; [|done..].
  by rewrite Hloop.
Qed.

(** *** Steps of the state monad *)

Lemma bind_Returns {A B} (m : M A) (k : A → M B) (s s' : State) (v : A) :
  m s = Returns v s' → bind m k s = k v s'.
Proof. unfold bind. by intros ->. Qed.

Lemma load_claims_Some (s : State) (c : loc) (cl : webOAuthClaims) :
  claimsHeap s !! c = Some cl → load_claims c s = Returns cl s.
Proof. unfold load_claims. by intros ->. Qed.

Lemma load_handler_Some (s : State) (a : loc) (h : webOAuthHandler) :
  handlers s !! a = Some h → load_handler a s = Returns h s.
Proof. unfold load_handler. by intros ->. Qed.

(** Code run on the outside world leaves both stores and the log alone. *)
Lemma run_frame {A} (f : World → A * World) (s s' : State) (v : A) :
  run f s = Returns v s' →
  f (world s) = (v, world s') ∧ calls s' = calls s ∧
  handlers s' = handlers s ∧ claimsHeap s' = claimsHeap s.
Proof.
  unfold run. destruct (f (world s)) as [v0 w]. intros [= <- <-]. done.
Qed.

(** *** webOAuthClaims.Valid *)

Lemma Valid_unfold (s : State) (c : loc) (cl : webOAuthClaims) :
  claimsHeap s !! c = Some cl →
  Valid rpc_JWTClaims_Valid c s =
    if jwt_VerifyAudience (RegisteredClaims (JWTClaims cl))
         (allowedAudience cl) true
    then run (rpc_JWTClaims_Valid (JWTClaims cl)) s
    else Returns (Some (errors_New "invalid aud")) s.
Proof.
  intros Hc. unfold Valid.
  rewrite (bind_Returns _ _ _ _ _ (load_claims_Some _ _ _ Hc)).
  by destruct (jwt_VerifyAudience _ _ _).
Qed.

Lemma Valid_claimsHeap (s s' : State) (c : loc) (v : option error) :
  Valid rpc_JWTClaims_Valid c s = Returns v s' → claimsHeap s' = claimsHeap s.
Proof.
  unfold Valid, bind, load_claims.
  destruct (claimsHeap s !! c) as [cl|]; [|done].
  destruct (negb _).
  - by intros [= _ <-].
  - intros H. by apply run_frame in H as (_ & _ & _ & ?).
Qed.

(** C1. [Valid] checks the audience first and the base claims second. When
    the audience list does not contain the allowed audience, or the
    library's audience check rejects it for another reason, [Valid] returns
    the "invalid aud" error and the state is untouched: the base validation
    has not run, whatever it would have said. When the audience check
    passes, [Valid] is the base validation of the embedded claims. [Valid]
    succeeds only if the allowed audience is in the list and the base
    validation succeeded. *)
Theorem Valid_audience_then_base (s : State) (c : loc) (cl : webOAuthClaims) :
  claimsHeap s !! c = Some cl →
  let aud := Audience (RegisteredClaims (JWTClaims cl)) in
  let check :=
    jwt_VerifyAudience (RegisteredClaims (JWTClaims cl))
      (allowedAudience cl) true in
  (allowedAudience cl ∉ aud → check = false) ∧
  (check = false →
     Valid rpc_JWTClaims_Valid c s =
       Returns (Some (errors_New "invalid aud")) s) ∧
  (check = true →
     Valid rpc_JWTClaims_Valid c s =
       run (rpc_JWTClaims_Valid (JWTClaims cl)) s) ∧
  (∀ s', Valid rpc_JWTClaims_Valid c s = Returns None s' →
     allowedAudience cl ∈ aud ∧ check = true ∧
     rpc_JWTClaims_Valid (JWTClaims cl) (world s) = (None, world s')).
Proof.
  intros Hc aud check. pose proof (Valid_unfold s c cl Hc) as HV.
  fold check in HV.
  assert (Hsound : check = true → allowedAudience cl ∈ aud)
    by apply jwt_verifyAud_required_elem.
  split_and!.
  - intros Hnot. destruct check; [|done]. by destruct Hnot; apply Hsound.
  - intros Hf. by rewrite HV, Hf.
  - intros Ht. by rewrite HV, Ht.
  - intros s' Hs'. rewrite HV in Hs'. destruct check; [|done].
    apply run_frame in Hs' as (? & _). auto.
Qed.

(** *** webOAuthHandler.TokenVerificationKey *)

Lemma call_LookupKey_unfold (kp : jwks_KeyProvider) (ctx : context_Context)
  (kid : string) (s : State) :
  call_LookupKey kp ctx kid s =
    Returns (LookupKey kp ctx kid (world s)).1
      {| world := (LookupKey kp ctx kid (world s)).2;
         calls := calls s ++ [Call_LookupKey ctx kid];
         handlers := handlers s; claimsHeap := claimsHeap s |}.
Proof.
  unfold call_LookupKey, bind, log, run; simpl.
  by destruct (LookupKey kp ctx kid (world s)).
Qed.

Lemma TokenVerificationKey_string (s : State) (a : loc) (token : jwt_Token)
  (kid : string) (h : webOAuthHandler) (kp : jwks_KeyProvider) :
  Header token !! "kid" = Some (any_string kid) →
  handlers s !! a = Some h →
  KeyProvider (Options h) = Some kp →
  TokenVerificationKey a token s =
    Returns (any_PublicKey (LookupKey kp context_TODO kid (world s)).1.1,
             (LookupKey kp context_TODO kid (world s)).1.2)
      {| world := (LookupKey kp context_TODO kid (world s)).2;
         calls := calls s ++ [Call_LookupKey context_TODO kid];
         handlers := handlers s; claimsHeap := claimsHeap s |}.
Proof.
  intros Hkid Ha Hkp. unfold TokenVerificationKey, index_any.
  rewrite Hkid; simpl.
  rewrite (bind_Returns _ _ _ _ _ (load_handler_Some _ _ _ Ha)), Hkp.
  by rewrite (bind_Returns _ _ _ _ _ (call_LookupKey_unfold _ _ _ _)).
Qed.

(** C2. When the "kid" entry of the header is absent or is not a string,
    [TokenVerificationKey] returns the "kid not valid" error in the state it
    started from: nothing has been looked up, and the handler has not even
    been dereferenced. When it is the string [kid], the configured provider
    is called once, with [kid], and its key and its error are what
    [TokenVerificationKey] returns; the only change of state is the
    provider's own and the entry of that one call in the log. *)
Theorem TokenVerificationKey_kid (s : State) (a : loc) (token : jwt_Token) :
  ((∀ kid, Header token !! "kid" ≠ Some (any_string kid)) →
     TokenVerificationKey a token s =
       Returns (any_nil, Some (errors_New "kid not valid")) s) ∧
  (∀ kid h kp,
     Header token !! "kid" = Some (any_string kid) →
     handlers s !! a = Some h →
     KeyProvider (Options h) = Some kp →
     ∃ key err w,
       LookupKey kp context_TODO kid (world s) = ((key, err), w) ∧
       TokenVerificationKey a token s =
         Returns (any_PublicKey key, err)
           {| world := w;
              calls := calls s ++ [Call_LookupKey context_TODO kid];
              handlers := handlers s; claimsHeap := claimsHeap s |}).
Proof.
  split.
  - intros Hkid. unfold TokenVerificationKey, index_any.
    destruct (Header token !! "kid") as [[ | kid | | ]|] eqn:E; try done.
    by destruct (Hkid kid).
  - intros kid h kp Hkid Ha Hkp.
    rewrite (TokenVerificationKey_string s a token kid h kp Hkid Ha Hkp).
    destruct (LookupKey kp context_TODO kid (world s)) as [[key err] w].
    by exists key, err, w.
Qed.

(** *** webOAuthClaims.Entity *)

Lemma Entity_unfold (s : State) (c : loc) (cl : webOAuthClaims) :
  claimsHeap s !! c = Some cl →
  Entity c s =
    match AuthMetadata (JWTClaims cl) !! "email" with
    | Some email => Returns (email, None) s
    | None =>
        Returns ("", Some (errors_New "missing email in rpc_auth_md")) s
    end.
Proof.
  intros Hc. unfold Entity.
  rewrite (bind_Returns _ _ _ _ _ (load_claims_Some _ _ _ Hc)).
  by destruct (_ !! "email").
Qed.

(** C3. [Entity] returns the value under "email" in the metadata map when
    there is one, and the "missing email" error when there is none, also in
    a state that [Valid] has just accepted. The subject plays no part: the
    same claims with any other subject give the same answer. *)
Theorem Entity_email (s : State) (c : loc) (cl : webOAuthClaims) :
  claimsHeap s !! c = Some cl →
  (∀ email, AuthMetadata (JWTClaims cl) !! "email" = Some email →
     Entity c s = Returns (email, None) s) ∧
  (AuthMetadata (JWTClaims cl) !! "email" = None →
     Entity c s =
       Returns ("", Some (errors_New "missing email in rpc_auth_md")) s ∧
     ∀ s', Valid rpc_JWTClaims_Valid c s = Returns None s' →
       Entity c s' =
         Returns ("", Some (errors_New "missing email in rpc_auth_md")) s') ∧
  (∀ subject s2,
     claimsHeap s2 !! c = Some (with_Subject subject cl) →
     result (Entity c s2) = result (Entity c s)).
Proof.
  intros Hc. split_and!.
  - intros email He. by rewrite (Entity_unfold s c cl Hc), He.
  - intros He. split.
    + by rewrite (Entity_unfold s c cl Hc), He.
    + intros s' HV. apply Valid_claimsHeap in HV.
      rewrite (Entity_unfold s' c cl), He; [done|]. by rewrite HV.
  - intros subject s2 Hc2.
    rewrite (Entity_unfold s c cl Hc), (Entity_unfold s2 c _ Hc2). simpl.
    by destruct (_ !! "email").
Qed.

(** *** webOAuthHandler.VerifyEntity and Authenticate *)

Lemma call_EntityVerifier_unfold
  (ev : context_Context → string → World → (any * option error) * World)
  (ctx : context_Context) (entity : string) (s : State) :
  call_EntityVerifier ev ctx entity s =
    Returns (ev ctx entity (world s)).1
      {| world := (ev ctx entity (world s)).2;
         calls := calls s ++ [Call_EntityVerifier ctx entity];
         handlers := handlers s; claimsHeap := claimsHeap s |}.
Proof.
  unfold call_EntityVerifier, bind, log, run; simpl.
  by destruct (ev ctx entity (world s)).
Qed.

Lemma VerifyEntity_unfold (s : State) (a : loc) (h : webOAuthHandler)
  (ctx : context_Context) (entity : string) :
  handlers s !! a = Some h →
  VerifyEntity a ctx entity s =
    match EntityVerifier (Options h) with
    | None =>
        Returns (any_nil, Some (status_Error codes_Internal
                                  "invalid verify entity configuration")) s
    | Some ev => call_EntityVerifier ev ctx entity s
    end.
Proof.
  intros Ha. unfold VerifyEntity.
  rewrite (bind_Returns _ _ _ _ _ (load_handler_Some _ _ _ Ha)).
  by destruct (EntityVerifier _).
Qed.

(** C5. Without an entity verifier in the options, [VerifyEntity] returns
    the Internal status error for every entity, in an unchanged state. With
    one, it calls it once with the caller's context and the entity, and
    returns its value and its error as they are. *)
Theorem VerifyEntity_delegates (s : State) (a : loc) (h : webOAuthHandler)
  (ctx : context_Context) (entity : string) :
  handlers s !! a = Some h →
  (EntityVerifier (Options h) = None →
     VerifyEntity a ctx entity s =
       Returns (any_nil, Some (status_Error codes_Internal
                                 "invalid verify entity configuration")) s) ∧
  (∀ ev, EntityVerifier (Options h) = Some ev →
     ∃ info err w,
       ev ctx entity (world s) = ((info, err), w) ∧
       VerifyEntity a ctx entity s =
         Returns (info, err)
           {| world := w;
              calls := calls s ++ [Call_EntityVerifier ctx entity];
              handlers := handlers s; claimsHeap := claimsHeap s |}).
Proof.
  intros Ha. rewrite (VerifyEntity_unfold s a h ctx entity Ha). split.
  - by intros ->.
  - intros ev ->. rewrite call_EntityVerifier_unfold.
    destruct (ev ctx entity (world s)) as [[info err] w].
    by exists info, err, w.
Qed.

(** C7. [Authenticate] returns no credentials and the Unimplemented status
    error, for every receiver, context, entity and payload, and in every
    state, which it leaves as it is. *)
Theorem Authenticate_unimplemented (s : State) (a : loc)
  (ctx : context_Context) (entity payload : string) :
  Authenticate a ctx entity payload s =
    Returns (None, Some (status_Error codes_Unimplemented
                           "not implemented with webauth")) s.
Proof. reflexivity. Qed.

(** C8. In one verification attempt with caller context [ctx], the key
    provider is called with [context.TODO], an empty context that carries
    nothing of [ctx], and the entity verifier is called with [ctx] itself:
    key resolution followed by entity verification leaves exactly these two
    calls in the log, and returns what the verifier returned on [ctx] in
    the world the provider left after its lookup on [context.TODO]. *)
Theorem contexts_received (s : State) (a : loc) (h : webOAuthHandler)
  (kp : jwks_KeyProvider)
  (ev : context_Context → string → World → (any * option error) * World)
  (token : jwt_Token) (kid : string) (ctx : context_Context)
  (entity : string) :
  handlers s !! a = Some h →
  KeyProvider (Options h) = Some kp →
  EntityVerifier (Options h) = Some ev →
  Header token !! "kid" = Some (any_string kid) →
  context_empty context_TODO = true ∧
  ∃ s',
    (_ <- TokenVerificationKey a token ;; VerifyEntity a ctx entity) s =
      Returns (ev ctx entity (LookupKey kp context_TODO kid (world s)).2).1
        s' ∧
    calls s' =
      (calls s ++ [Call_LookupKey context_TODO kid;
                   Call_EntityVerifier ctx entity])%list.
Proof.
  intros Ha Hkp Hev Hkid. split; [done|].
  rewrite (bind_Returns _ _ _ _ _
             (TokenVerificationKey_string s a token kid h kp Hkid Ha Hkp)).
  cbv beta. erewrite VerifyEntity_unfold by exact Ha. rewrite Hev.
  rewrite call_EntityVerifier_unfold; simpl.
  eexists; split; [done|]. simpl. by rewrite <-app_assoc.
Qed.

(** *** webOAuthHandler.CreateClaims and the handler's configuration *)

Lemma CreateClaims_unfold (s : State) (a : loc) (h : webOAuthHandler) :
  handlers s !! a = Some h →
  CreateClaims a s =
    Returns (fresh (dom (claimsHeap s)))
      {| world := world s; calls := calls s; handlers := handlers s;
         claimsHeap :=
           <[fresh (dom (claimsHeap s)) :=
               {| JWTClaims := rpc_JWTClaims_zero;
                  allowedAudience := AllowedAudience (Options h) |}]>
             (claimsHeap s) |}.
Proof.
  intros Ha. unfold CreateClaims.
  by rewrite (bind_Returns _ _ _ _ _ (load_handler_Some _ _ _ Ha)).
Qed.

Lemma fresh_claims_None (s : State) :
  claimsHeap s !! fresh (dom (claimsHeap s)) = None.
Proof. apply not_elem_of_dom, is_fresh. Qed.

Lemma VerifyEntity_handlers (s s' : State) (a : loc) (ctx : context_Context)
  (entity : string) (r : any * option error) :
  VerifyEntity a ctx entity s = Returns r s' → handlers s' = handlers s.
Proof.
  unfold VerifyEntity, bind, load_handler.
  destruct (handlers s !! a) as [h|]; [|done].
  destruct (EntityVerifier (Options h)) as [ev|].
  - rewrite call_EntityVerifier_unfold. by intros [= _ <-].
  - by intros [= _ <-].
Qed.

Lemma TokenVerificationKey_handlers (s s' : State) (a : loc)
  (token : jwt_Token) (r : any * option error) :
  TokenVerificationKey a token s = Returns r s' → handlers s' = handlers s.
Proof.
  unfold TokenVerificationKey.
  destruct (assert_string _) as [keyID [|]]; simpl.
  - unfold bind at 1, load_handler.
    destruct (handlers s !! a) as [h|]; [|done].
    destruct (KeyProvider (Options h)) as [kp|]; [|done].
    rewrite (bind_Returns _ _ _ _ _ (call_LookupKey_unfold _ _ _ _)).
    by intros [= _ <-].
  - by intros [= _ <-].
Qed.

(** C9. [CreateClaims] returns the address of a new claims object: the
    address was not in use before the call (so it differs from every
    address returned earlier), a further call returns yet another one, the
    object has zero payload fields and the handler's [AllowedAudience], and
    the objects that were there are as they were. The call changes neither
    the handler store nor the world nor the log. [Authenticate],
    [VerifyEntity] and [TokenVerificationKey] leave the handler store as it
    was whenever they return. *)
Theorem CreateClaims_fresh_frame (s : State) (a : loc) (h : webOAuthHandler) :
  handlers s !! a = Some h →
  (∃ c s',
     CreateClaims a s = Returns c s' ∧
     claimsHeap s !! c = None ∧
     claimsHeap s' !! c =
       Some {| JWTClaims := rpc_JWTClaims_zero;
               allowedAudience := AllowedAudience (Options h) |} ∧
     (∀ c0, c0 ≠ c → claimsHeap s' !! c0 = claimsHeap s !! c0) ∧
     handlers s' = handlers s ∧ world s' = world s ∧ calls s' = calls s ∧
     ∃ c2 s2,
       CreateClaims a s' = Returns c2 s2 ∧ c2 ≠ c ∧
       handlers s2 = handlers s) ∧
  (∀ ctx entity payload r s',
     Authenticate a ctx entity payload s = Returns r s' →
     handlers s' = handlers s) ∧
  (∀ ctx entity r s',
     VerifyEntity a ctx entity s = Returns r s' →
     handlers s' = handlers s) ∧
  (∀ token r s',
     TokenVerificationKey a token s = Returns r s' →
     handlers s' = handlers s).
Proof.
  intros Ha. split_and!.
  - do 2 eexists. split; [apply (CreateClaims_unfold s a h Ha)|]. simpl.
    split_and!; try done.
    + apply fresh_claims_None.
    + apply lookup_insert_eq.
    + intros c0 Hne. by apply lookup_insert_ne.
    + do 2 eexists. split; [by apply (CreateClaims_unfold _ a h)|]. simpl.
      split; [|done]. intros Heq.
      pose proof (is_fresh (dom (<[fresh (dom (claimsHeap s)) :=
        {| JWTClaims := rpc_JWTClaims_zero;
           allowedAudience := AllowedAudience (Options h) |}]>
        (claimsHeap s)))) as Hfresh.
      rewrite Heq in Hfresh. apply Hfresh.
      rewrite dom_insert_L. set_solver.
  - by intros ctx entity payload r s' [= _ <-].
  - intros ctx entity r s'. apply VerifyEntity_handlers.
  - intros token r s'. apply TokenVerificationKey_handlers.
Qed.

(** *** SignWebAuthAccessToken *)

Lemma accessClaims_email (now : time_Time) (entity aud iss : string) :
  AuthMetadata (accessClaims jwt_NewNumericDate now entity aud iss)
    !! "email" = Some entity.
Proof. apply lookup_insert_eq. Qed.

Lemma Entity_accessClaims (s : State) (c : loc) (cl : webOAuthClaims)
  (now : time_Time) (entity aud iss : string) :
  claimsHeap s !! c = Some cl →
  JWTClaims cl = accessClaims jwt_NewNumericDate now entity aud iss →
  Entity c s = Returns (entity, None) s.
Proof.
  intros Hc Hcl.
  by rewrite (Entity_unfold s c cl Hc), Hcl, accessClaims_email.
Qed.

(** C6. For every key, [SignWebAuthAccessToken] returns what
    [SignedString] returns, the compact form or the signing error, for that
    key and a token whose
    header is exactly typ=JWT, alg=RS256 and kid=[keyID], whose method is
    RS256, and whose payload has the audience list [[aud]], the issuer
    [iss], the subject [entity], the issued-at date of the clock reading,
    no expiry and no not-before date, the credentials type of this scheme,
    and the metadata map with [entity] under "email" and nothing else;
    "email" is the key [Entity] reads, which returns [entity] on claims
    with this payload. *)
Theorem SignWebAuthAccessToken_token (s : State)
  (k : rsa_PrivateKey) (entity aud iss keyID : string) :
  let now := time_Now (world s) in
  let token := accessToken jwt_NewNumericDate now entity aud iss keyID in
  let payload := accessClaims jwt_NewNumericDate now entity aud iss in
  SignWebAuthAccessToken jwt_SignedString time_Now jwt_NewNumericDate
    (Some k) entity aud iss keyID s =
    Returns (jwt_SignedString token k) s ∧
  Header token !! "typ" = Some (any_string "JWT") ∧
  Header token !! "alg" = Some (any_string "RS256") ∧
  Header token !! "kid" = Some (any_string keyID) ∧
  dom (Header token) = {[ "typ"; "alg"; "kid" ]} ∧
  Method token = Some jwt_SigningMethodRS256 ∧
  Claims token = Claims_JWTClaims payload ∧
  Audience (RegisteredClaims payload) = [aud] ∧
  Issuer (RegisteredClaims payload) = iss ∧
  Subject (RegisteredClaims payload) = entity ∧
  IssuedAt (RegisteredClaims payload) = Some (jwt_NewNumericDate now) ∧
  ExpiresAt (RegisteredClaims payload) = None ∧
  NotBefore (RegisteredClaims payload) = None ∧
  CredentialsType payload = "oauth-web-auth" ∧
  AuthMetadata payload = {[ "email" := entity ]} ∧
  ∀ (s0 : State) c cl,
    claimsHeap s0 !! c = Some cl → JWTClaims cl = payload →
    Entity c s0 = Returns (entity, None) s0.
Proof.
  intros now token payload. split_and!; try reflexivity.
  intros s0 c cl Hc Hcl. by apply (Entity_accessClaims s0 c cl now _ aud iss).
Qed.

(** *** Claims decoded from a token *)

Lemma decodeClaims_spec (s : State) (a : loc) (h : webOAuthHandler)
  (payload : rpc_JWTClaims) :
  handlers s !! a = Some h →
  ∃ c s',
    decodeClaims a payload s = Returns c s' ∧
    claimsHeap s !! c = None ∧
    claimsHeap s' !! c =
      Some {| JWTClaims := payload;
              allowedAudience := AllowedAudience (Options h) |} ∧
    world s' = world s ∧ calls s' = calls s ∧ handlers s' = handlers s.
Proof.
  intros Ha. unfold decodeClaims.
  rewrite (bind_Returns _ _ _ _ _ (CreateClaims_unfold s a h Ha)).
  unfold fillClaims. unfold bind at 1. unfold bind at 1.
  unfold load_claims at 1; simpl. rewrite lookup_insert_eq; simpl.
  do 2 eexists. split; [reflexivity|]. simpl. split_and!; try done.
  - apply fresh_claims_None.
  - apply lookup_insert_eq.
Qed.

(** C10. Whatever its arguments, the token that [SignWebAuthAccessToken]
    signs has the entity argument both as the subject of its payload and
    under "email" in its metadata, so whatever is under "email" is the
    subject: no call signs a token in which the two differ. And when a
    handler decodes the payload of the token just signed, [Entity] returns
    the entity argument of the issuing call. *)
Theorem issued_subject_is_email (s : State) (k : rsa_PrivateKey)
  (entity aud iss keyID : string) :
  let now := time_Now (world s) in
  let token := accessToken jwt_NewNumericDate now entity aud iss keyID in
  let payload := accessClaims jwt_NewNumericDate now entity aud iss in
  SignWebAuthAccessToken jwt_SignedString time_Now jwt_NewNumericDate
    (Some k) entity aud iss keyID s =
    Returns (jwt_SignedString token k) s ∧
  Claims token = Claims_JWTClaims payload ∧
  Subject (RegisteredClaims payload) = entity ∧
  AuthMetadata payload !! "email" = Some entity ∧
  (∀ email, AuthMetadata payload !! "email" = Some email →
     Subject (RegisteredClaims payload) = email) ∧
  ∀ a h, handlers s !! a = Some h →
    ∃ s',
      (compact <- SignWebAuthAccessToken jwt_SignedString time_Now
                    jwt_NewNumericDate (Some k) entity aud iss keyID ;;
       c <- decodeClaims a payload ;;
       e <- Entity c ;;
       ret (compact, e)) s =
        Returns (jwt_SignedString token k, (entity, None)) s'.
Proof.
  intros now token payload. split_and!.
  - reflexivity.
  - reflexivity.
  - reflexivity.
  - apply accessClaims_email.
  - intros email. unfold payload. rewrite accessClaims_email.
    by intros [= <-].
  - intros a h Ha.
    destruct (decodeClaims_spec s a h payload Ha) as (c & s' & Hd & _ & Hc & _).
    unfold bind at 1. cbn [SignWebAuthAccessToken]. fold now token payload.
    rewrite (bind_Returns _ _ _ _ _ Hd).
    rewrite (bind_Returns _ _ _ _ _
               (Entity_accessClaims s' c _ now entity aud iss Hc eq_refl)).
    by exists s'.
Qed.

(** *** One verification attempt on an issued token *)

(** The verification attempt on the header and the payload issued for
    "u@example.com", "svc-a", "idp" and "k1", at a handler that allows
    "svc-a" and whose provider has the key, under a base validation that
    accepts the payload: the entity is returned, the lookup of "k1" is the
    only call. *)
Lemma verifyToken_accepts_issued (s : State) (a : loc) (h : webOAuthHandler)
  (kp : jwks_KeyProvider) (pub : rsa_PublicKey) (now : time_Time)
  (w1 w2 : World) :
  let token :=
    accessToken jwt_NewNumericDate now "u@example.com" "svc-a" "idp" "k1" in
  let payload :=
    accessClaims jwt_NewNumericDate now "u@example.com" "svc-a" "idp" in
  handlers s !! a = Some h →
  AllowedAudience (Options h) = "svc-a" →
  KeyProvider (Options h) = Some kp →
  LookupKey kp context_TODO "k1" (world s) = ((Some pub, None), w1) →
  rpc_JWTClaims_Valid payload w1 = (None, w2) →
  Subject (RegisteredClaims payload) = "u@example.com" ∧
  ∃ s',
    verifyToken rpc_JWTClaims_Valid a token payload s =
      Returns ("u@example.com", None) s' ∧
    world s' = w2 ∧
    calls s' = (calls s ++ [Call_LookupKey context_TODO "k1"])%list.
Proof.
  intros token payload Ha Haud Hkp Hlookup Hbase. split; [done|].
  destruct (decodeClaims_spec s a h payload Ha)
    as (c & s1 & Hd & _ & Hc & Hw & Hcalls & Hh).
  unfold verifyToken. rewrite (bind_Returns _ _ _ _ _ Hd).
  erewrite bind_Returns; cycle 1.
  { apply (TokenVerificationKey_string s1 a _ "k1" h kp); [done| |done].
    by rewrite Hh. }
  rewrite Hw, Hlookup; simpl.
  erewrite bind_Returns; cycle 1.
  { erewrite Valid_unfold; [|exact Hc]. simpl. unfold run; simpl.
    rewrite Haud; simpl. rewrite Hbase. reflexivity. }
  simpl. erewrite Entity_unfold; [|exact Hc]. simpl.
  rewrite lookup_insert_eq.
  eexists; split; [reflexivity|]. simpl. by rewrite Hcalls.
Qed.

(** ** Further properties of the code *)

(** *** The audience check, in both directions *)

Lemma append_empty (x y : string) : x +:+ y = "" ↔ x = "" ∧ y = "".
Proof.
  destruct x; simpl; split; [done|by intros [_ ->]|done|by intros [? _]].
Qed.

Lemma length_0_empty (x : string) : String.length x = 0%nat ↔ x = "".
Proof. by destruct x. Qed.

Lemma ConstantTimeCompare_refl (x : string) :
  subtle_ConstantTimeCompare x x ≠ 0.
Proof. unfold subtle_ConstantTimeCompare. by rewrite decide_True. Qed.

Lemma verifyAud_loop_found (cmp : string) (aud : list string) :
  ∀ (result : bool) (stringClaims : string),
    result = true ∨ cmp ∈ aud →
    (foldl (verifyAud_step cmp) (result, stringClaims) aud).1 = true.
Proof.
  induction aud as [|a aud IH]; intros result stringClaims; simpl.
  - intros [?|?%elem_of_nil]; done.
  - intros [->|[->|?]%elem_of_cons]; apply IH.
    + left. by case_decide.
    + left. by rewrite decide_True by apply ConstantTimeCompare_refl.
    + by right.
Qed.

Lemma verifyAud_loop_claims (cmp : string) (aud : list string) :
  ∀ (result : bool) (stringClaims : string),
    (foldl (verifyAud_step cmp) (result, stringClaims) aud).2 = "" ↔
    stringClaims = "" ∧ Forall (λ a, a = "") aud.
Proof.
  induction aud as [|a aud IH]; intros result stringClaims; simpl.
  - split; [by split|by intros [? _]].
  - rewrite IH, append_empty, Forall_cons. tauto.
Qed.

(** The required audience check passes exactly when the audience is one of
    the entries and the entries are not all empty strings. *)
Lemma jwt_verifyAud_required_iff (aud : list string) (cmp : string) :
  jwt_verifyAud aud cmp true = true ↔
  cmp ∈ aud ∧ ¬ Forall (λ a, a = "") aud.
Proof.
  split.
  - intros H. split; [by apply jwt_verifyAud_required_elem|].
    revert H. unfold jwt_verifyAud. case_decide; [done|].
    destruct (foldl _ _ aud) as [result stringClaims] eqn:Hloop.
    case_decide as Hlen; [done|]. intros _ Hall. apply Hlen, length_0_empty.
    pose proof (proj2 (verifyAud_loop_claims cmp aud false "")
                  (conj eq_refl Hall)) as Hclaims.
    by rewrite Hloop in Hclaims.
  - intros [Hin Hall]. unfold jwt_verifyAud.
    case_decide as Hnil.
    { destruct aud; [by apply elem_of_nil in Hin|done]. }
    pose proof (verifyAud_loop_found cmp aud false "" (or_intror Hin)) as Hf.
    pose proof (verifyAud_loop_claims cmp aud false "") as Hc.
    destruct (foldl _ _ aud) as [result stringClaims].
    case_decide as Hlen; [|done].
    apply length_0_empty, Hc in Hlen as [_ ?]. done.
Qed.

(** X1. A token without an audience is rejected: when the audience list
    is empty, or holds empty strings only, [Valid] returns "invalid aud"
    whatever the allowed audience is, the empty one included, and the base
    validation does not run. *)
Theorem Valid_rejects_missing_aud (s : State) (c : loc)
  (cl : webOAuthClaims) :
  claimsHeap s !! c = Some cl →
  Forall (λ a, a = "") (Audience (RegisteredClaims (JWTClaims cl))) →
  Valid rpc_JWTClaims_Valid c s =
    Returns (Some (errors_New "invalid aud")) s.
Proof.
  intros Hc Hall. rewrite (Valid_unfold s c cl Hc).
  destruct (jwt_VerifyAudience _ _ _) eqn:Hcheck; [|done].
  by apply jwt_verifyAud_required_iff in Hcheck as [_ []].
Qed.

(** X2. The audience check decides as follows: [Valid] is the base
    validation exactly when the allowed audience is one of the entries and
    some entry is not the empty string, and is "invalid aud" otherwise. For
    a non-empty allowed audience this is membership in the list. *)
Theorem Valid_audience_listed (s : State) (c : loc) (cl : webOAuthClaims) :
  claimsHeap s !! c = Some cl →
  let aud := Audience (RegisteredClaims (JWTClaims cl)) in
  (allowedAudience cl ∈ aud → ¬ Forall (λ a, a = "") aud →
     Valid rpc_JWTClaims_Valid c s =
       run (rpc_JWTClaims_Valid (JWTClaims cl)) s) ∧
  (allowedAudience cl ∉ aud ∨ Forall (λ a, a = "") aud →
     Valid rpc_JWTClaims_Valid c s =
       Returns (Some (errors_New "invalid aud")) s) ∧
  (allowedAudience cl ≠ "" → allowedAudience cl ∈ aud →
     Valid rpc_JWTClaims_Valid c s =
       run (rpc_JWTClaims_Valid (JWTClaims cl)) s).
Proof.
  intros Hc aud. rewrite (Valid_unfold s c cl Hc).
  unfold jwt_VerifyAudience. fold aud.
  pose proof (jwt_verifyAud_required_iff aud (allowedAudience cl)) as Hiff.
  destruct (jwt_verifyAud aud (allowedAudience cl) true).
  - destruct (proj1 Hiff eq_refl) as [Hin Hne].
    split_and!; [done | by intros [?|?] | done].
  - assert (Hno : ¬ (allowedAudience cl ∈ aud
                     ∧ ¬ Forall (λ a, a = "") aud))
      by (by intros ?%Hiff).
    split_and!.
    + intros ? ?. by destruct Hno.
    + done.
    + intros Hne Hin. destruct Hno. split; [done|].
      intros Hall. apply Hne. by eapply (proj1 (Forall_forall _ _) Hall).
Qed.

(** *** Claims that were created and not filled *)

(** X3. Claims as [CreateClaims] returns them never validate: on the new
    object [Valid] returns "invalid aud", for every allowed audience the
    handler may have, and [Entity] returns the "missing email" error. *)
Theorem unfilled_claims_never_validate (s : State) (a : loc)
  (h : webOAuthHandler) :
  handlers s !! a = Some h →
  ∃ c s',
    CreateClaims a s = Returns c s' ∧
    Valid rpc_JWTClaims_Valid c s' =
      Returns (Some (errors_New "invalid aud")) s' ∧
    Entity c s' =
      Returns ("", Some (errors_New "missing email in rpc_auth_md")) s'.
Proof.
  intros Ha. do 2 eexists.
  split; [apply (CreateClaims_unfold s a h Ha)|].
  split.
  - erewrite Valid_unfold; [|apply lookup_insert_eq]. done.
  - erewrite Entity_unfold; [|apply lookup_insert_eq]. done.
Qed.

(** *** What the key resolver looks at *)

(** X4. [TokenVerificationKey] looks at the "kid" entry of the header and
    at nothing else of the token: two tokens with the same entry, whatever
    their algorithm, other header entries, claims and method, resolve alike
    in every state. *)
Theorem TokenVerificationKey_only_kid (s : State) (a : loc)
  (token1 token2 : jwt_Token) :
  Header token1 !! "kid" = Header token2 !! "kid" →
  TokenVerificationKey a token1 s = TokenVerificationKey a token2 s.
Proof.
  intros Hkid. unfold TokenVerificationKey, index_any. by rewrite Hkid.
Qed.

(** X5. The header that the issuer writes is one the resolver accepts, for
    every key id, the empty one included: resolving the key of an issued
    token asks the provider once for exactly the issuer's [keyID] and
    returns its answer. *)
Theorem issued_token_resolves_by_keyID (s : State) (a : loc)
  (h : webOAuthHandler) (kp : jwks_KeyProvider) (now : time_Time)
  (entity aud iss keyID : string) :
  handlers s !! a = Some h →
  KeyProvider (Options h) = Some kp →
  TokenVerificationKey a
    (accessToken jwt_NewNumericDate now entity aud iss keyID) s =
    Returns (any_PublicKey (LookupKey kp context_TODO keyID (world s)).1.1,
             (LookupKey kp context_TODO keyID (world s)).1.2)
      {| world := (LookupKey kp context_TODO keyID (world s)).2;
         calls := calls s ++ [Call_LookupKey context_TODO keyID];
         handlers := handlers s; claimsHeap := claimsHeap s |}.
Proof.
  intros Ha Hkp.
  by apply (TokenVerificationKey_string s a _ keyID h kp).
Qed.

(** X6. On claims with an issued payload, the audience decides as follows:
    a handler whose allowed audience is the issuer's [aud] gets the base
    validation, provided [aud] is not empty; a handler with another allowed
    audience, and every handler when the token was issued for the empty
    audience, gets "invalid aud". *)
Theorem issued_audience_decides (s : State) (c : loc) (cl : webOAuthClaims)
  (now : time_Time) (entity aud iss : string) :
  claimsHeap s !! c = Some cl →
  JWTClaims cl = accessClaims jwt_NewNumericDate now entity aud iss →
  (aud ≠ "" → allowedAudience cl = aud →
     Valid rpc_JWTClaims_Valid c s =
       run (rpc_JWTClaims_Valid (JWTClaims cl)) s) ∧
  (allowedAudience cl ≠ aud ∨ aud = "" →
     Valid rpc_JWTClaims_Valid c s =
       Returns (Some (errors_New "invalid aud")) s).
Proof.
  intros Hc Hcl. rewrite (Valid_unfold s c cl Hc).
  unfold jwt_VerifyAudience. rewrite Hcl; simpl.
  pose proof (jwt_verifyAud_required_iff [aud] (allowedAudience cl)) as Hiff.
  destruct (jwt_verifyAud [aud] (allowedAudience cl) true).
  - destruct (proj1 Hiff eq_refl) as [Hin%list_elem_of_singleton Hne].
    split; [done|]. intros [?| ->]; [done|].
    destruct Hne. by apply Forall_singleton.
  - split; [|done]. intros Hne Heq.
    assert (false = true); [|done].
    apply Hiff. split; [by apply list_elem_of_singleton|].
    intros Hall. by apply (proj1 (Forall_singleton _ _)) in Hall.
Qed.

(** *** What the methods leave alone *)

(** X7. [Entity] changes nothing at all, and [Valid] changes no claims
    object, no handler and makes no call to a collaborator: validating
    claims and reading their entity leave the claims as they were. *)
Theorem claims_methods_read_only (s : State) (c : loc) :
  (∀ r s', Entity c s = Returns r s' → s' = s) ∧
  (∀ v s', Valid rpc_JWTClaims_Valid c s = Returns v s' →
     claimsHeap s' = claimsHeap s ∧ handlers s' = handlers s ∧
     calls s' = calls s).
Proof.
  split.
  - intros r s'. unfold Entity, bind, load_claims.
    destruct (claimsHeap s !! c) as [cl|]; [|done].
    destruct (_ !! "email"); by intros [= _ <-].
  - intros v s'. unfold Valid, bind, load_claims.
    destruct (claimsHeap s !! c) as [cl|]; [|done].
    destruct (negb _).
    + by intros [= _ <-].
    + intros H. by apply run_frame in H as (_ & ? & ? & ?).
Qed.

(** X10. No method of the handler but [CreateClaims] touches a claims
    object: [Authenticate], [VerifyEntity] and [TokenVerificationKey] leave
    the claims heap as it was, and [SignWebAuthAccessToken] leaves the
    whole state as it was. *)
Theorem handler_methods_keep_claims (s : State) (a : loc) :
  (∀ ctx entity payload r s',
     Authenticate a ctx entity payload s = Returns r s' → s' = s) ∧
  (∀ ctx entity r s',
     VerifyEntity a ctx entity s = Returns r s' →
     claimsHeap s' = claimsHeap s) ∧
  (∀ token r s',
     TokenVerificationKey a token s = Returns r s' →
     claimsHeap s' = claimsHeap s) ∧
  (∀ key entity aud iss keyID r s',
     SignWebAuthAccessToken jwt_SignedString time_Now jwt_NewNumericDate key
       entity aud iss keyID s = Returns r s' → s' = s).
Proof.
  split_and!.
  - by intros ctx entity payload r s' [= _ <-].
  - intros ctx entity r s'. unfold VerifyEntity, bind, load_handler.
    destruct (handlers s !! a) as [h|]; [|done].
    destruct (EntityVerifier (Options h)) as [ev|].
    + rewrite call_EntityVerifier_unfold. by intros [= _ <-].
    + by intros [= _ <-].
  - intros token r s'. unfold TokenVerificationKey.
    destruct (assert_string _) as [keyID [|]]; simpl.
    + unfold bind at 1, load_handler.
      destruct (handlers s !! a) as [h|]; [|done].
      destruct (KeyProvider (Options h)) as [kp|]; [|done].
      rewrite (bind_Returns _ _ _ _ _ (call_LookupKey_unfold _ _ _ _)).
      by intros [= _ <-].
    + by intros [= _ <-].
  - intros [k|] entity aud iss keyID r s'; [|done]. by intros [= _ <-].
Qed.

(** *** A handler without a key provider *)

(** X9. The key provider has no nil guard as the entity verifier has: for
    a handler configured without one, resolving the key of a token with a
    string "kid" panics instead of returning an error. *)
Theorem TokenVerificationKey_without_provider (s : State) (a : loc)
  (h : webOAuthHandler) (token : jwt_Token) (kid : string) :
  handlers s !! a = Some h →
  KeyProvider (Options h) = None →
  Header token !! "kid" = Some (any_string kid) →
  TokenVerificationKey a token s = Panics.
Proof.
  intros Ha Hkp Hkid. unfold TokenVerificationKey, index_any.
  rewrite Hkid; simpl.
  by rewrite (bind_Returns _ _ _ _ _ (load_handler_Some _ _ _ Ha)), Hkp.
Qed.

(** *** WithWebOAuthTokenAuthHandler *)

Context {ServerOption : Type}.
Variable rpc_WithAuthHandler : rpc_CredentialsType → loc → ServerOption.

(** X8. [WithWebOAuthTokenAuthHandler] registers, for the credentials type
    "oauth-web-auth", a handler of its own: one at an address not in use,
    holding the options it was given, with the handlers and claims that
    exist, the world and the log left as they were. The claims this handler
    creates carry the allowed audience of those options. *)
Theorem WithWebOAuthTokenAuthHandler_registers (s : State)
  (opts : WebOAuthOptions) :
  ∃ a s',
    WithWebOAuthTokenAuthHandler rpc_WithAuthHandler opts s =
      Returns (rpc_WithAuthHandler "oauth-web-auth" a) s' ∧
    handlers s !! a = None ∧
    handlers s' !! a = Some {| Options := opts |} ∧
    (∀ a0, a0 ≠ a → handlers s' !! a0 = handlers s !! a0) ∧
    claimsHeap s' = claimsHeap s ∧ world s' = world s ∧
    calls s' = calls s ∧
    ∃ c s2,
      CreateClaims a s' = Returns c s2 ∧
      claimsHeap s2 !! c =
        Some {| JWTClaims := rpc_JWTClaims_zero;
                allowedAudience := AllowedAudience opts |}.
Proof.
  do 2 eexists. split; [reflexivity|]. simpl. split_and!; try done.
  - apply not_elem_of_dom, is_fresh.
  - apply lookup_insert_eq.
  - intros a0 Hne. by apply lookup_insert_ne.
  - do 2 eexists. split.
    + apply (CreateClaims_unfold _ _ {| Options := opts |}).
      apply lookup_insert_eq.
    + apply lookup_insert_eq.
Qed.

(** X11. The options are not checked at setup: options without an
    entity verifier are registered like any others, and it is the first
    [VerifyEntity] on the registered handler that returns the Internal
    status error. *)
Theorem setup_accepts_missing_verifier (s : State) (opts : WebOAuthOptions)
  (ctx : context_Context) (entity : string) :
  EntityVerifier opts = None →
  ∃ a s',
    WithWebOAuthTokenAuthHandler rpc_WithAuthHandler opts s =
      Returns (rpc_WithAuthHandler "oauth-web-auth" a) s' ∧
    VerifyEntity a ctx entity s' =
      Returns (any_nil, Some (status_Error codes_Internal
                                "invalid verify entity configuration")) s'.
Proof.
  intros Hev. do 2 eexists. split; [reflexivity|].
  erewrite VerifyEntity_unfold; [|apply lookup_insert_eq].
  simpl. by rewrite Hev.
Qed.

End properties.

(** ** Issuing and verifying in one run *)

Section end_to_end.

Context {World Dyn ExtErr : Type}.

Variable jwt_SignedString :
  @jwt_Token Dyn → rsa_PrivateKey → string * option (@error ExtErr).
Variable time_Now : World → time_Time.
Variable jwt_NewNumericDate : time_Time → jwt_NumericDate.
Variable jwt_ValidationError : @error ExtErr.

Abbreviation State := (@State World Dyn ExtErr).
Abbreviation webOAuthHandler := (@webOAuthHandler World Dyn ExtErr).
Abbreviation jwks_KeyProvider := (@jwks_KeyProvider World ExtErr).
Abbreviation accessToken := (@accessToken Dyn).
Abbreviation base_Valid :=
  (JWTClaims_Valid_spec time_Now jwt_ValidationError).

(** The base validation modelled from the spec accepts a payload without
    expiry whose issued-at date the clock has reached. *)
Lemma JWTClaims_Valid_spec_issued (now : time_Time)
  (entity aud iss : string) (w : World) :
  (jwt_NewNumericDate now ≤ time_Now w)%Z →
  base_Valid (accessClaims jwt_NewNumericDate now entity aud iss) w =
    (None, w).
Proof.
  intros Hle. unfold JWTClaims_Valid_spec; simpl.
  by rewrite (proj2 (Z.leb_le _ _) Hle).
Qed.



End end_to_end.

(** ** The theorems at the concrete deployment *)

(** C1 on two claims objects: the audience "svc-a" is accepted and the base
    validation decides; the audience "svc-b" is refused. *)
Lemma Valid_audience_then_base_witness :
  (claimsHeap ex_state !! 1%positive = Some ex_claims ∧
   Valid ex_base_Valid 1%positive ex_state = Returns None ex_state) ∧
  (claimsHeap ex_state !! 2%positive = Some ex_claims_b ∧
   Valid ex_base_Valid 2%positive ex_state =
     Returns (Some (errors_New "invalid aud")) ex_state).
Proof.
  assert (H1 : claimsHeap ex_state !! 1%positive = Some ex_claims)
    by reflexivity.
  assert (H2 : claimsHeap ex_state !! 2%positive = Some ex_claims_b)
    by reflexivity.
  split; (split; [assumption|]).
  - destruct (Valid_audience_then_base ex_base_Valid ex_state 1%positive
                ex_claims H1) as (_ & _ & Hrun & _).
    rewrite Hrun; reflexivity.
  - destruct (Valid_audience_then_base ex_base_Valid ex_state 2%positive
                ex_claims_b H2) as (Hnot & Hfail & _).
    apply Hfail, Hnot. vm_compute. by intros ?%list_elem_of_singleton.
Defined.

(** C2 on a header without "kid" and on the header of an issued token. *)
Lemma TokenVerificationKey_kid_witness :
  TokenVerificationKey 1%positive ex_token_no_kid ex_state =
    Returns (any_nil, Some (errors_New "kid not valid")) ex_state ∧
  TokenVerificationKey 1%positive ex_token ex_state =
    Returns (any_PublicKey (Some ex_key), None)
      {| world := world ex_state;
         calls := [Call_LookupKey context_TODO "k1"];
         handlers := handlers ex_state;
         claimsHeap := claimsHeap ex_state |}.
Proof.
  split.
  - apply (proj1 (TokenVerificationKey_kid ex_state 1%positive
                    ex_token_no_kid)).
    intros kid. vm_compute. discriminate.
  - destruct (proj2 (TokenVerificationKey_kid ex_state 1%positive ex_token)
                "k1" ex_handler ex_provider eq_refl eq_refl eq_refl)
      as (key & err & w & Hlookup & HT).
    vm_compute in Hlookup. injection Hlookup as <- <- <-. exact HT.
Defined.

(** C3 on claims with and without the "email" attribute. *)
Lemma Entity_email_witness :
  (claimsHeap ex_state !! 1%positive = Some ex_claims ∧
   Entity 1%positive ex_state = Returns ("u@example.com", None) ex_state) ∧
  (claimsHeap ex_state !! 3%positive = Some ex_claims_anonymous ∧
   Valid ex_base_Valid 3%positive ex_state = Returns None ex_state ∧
   Entity 3%positive ex_state =
     Returns ("", Some (errors_New "missing email in rpc_auth_md")) ex_state).
Proof.
  assert (H1 : claimsHeap ex_state !! 1%positive = Some ex_claims)
    by reflexivity.
  assert (H3 : claimsHeap ex_state !! 3%positive = Some ex_claims_anonymous)
    by reflexivity.
  split; (split; [assumption|]).
  - by apply (proj1 (Entity_email ex_base_Valid ex_state 1%positive
                       ex_claims H1)).
  - assert (HV : Valid ex_base_Valid 3%positive ex_state
                 = Returns None ex_state) by reflexivity.
    split; [exact HV|].
    destruct (Entity_email ex_base_Valid ex_state 3%positive
                ex_claims_anonymous H3) as (_ & Hnone & _).
    by apply Hnone.
Defined.

(** C5 on the handler without a verifier and on the handler with one. *)
Lemma VerifyEntity_delegates_witness :
  (handlers ex_state !! 2%positive = Some ex_handler_unverified ∧
   VerifyEntity 2%positive context_Background "u@example.com" ex_state =
     Returns (any_nil, Some (status_Error codes_Internal
                               "invalid verify entity configuration"))
       ex_state) ∧
  (handlers ex_state !! 1%positive = Some ex_handler ∧
   VerifyEntity 1%positive (context_WithDeadline context_Background 1700000090)
     "u@example.com" ex_state =
     Returns (any_string "u@example.com", None)
       {| world := world ex_state;
          calls := [Call_EntityVerifier
                      (context_WithDeadline context_Background 1700000090)
                      "u@example.com"];
          handlers := handlers ex_state;
          claimsHeap := claimsHeap ex_state |}).
Proof.
  assert (H1 : handlers ex_state !! 1%positive = Some ex_handler)
    by reflexivity.
  assert (H2 : handlers ex_state !! 2%positive = Some ex_handler_unverified)
    by reflexivity.
  split; (split; [assumption|]).
  - by apply (proj1 (VerifyEntity_delegates ex_state 2%positive
                       ex_handler_unverified context_Background
                       "u@example.com" H2)).
  - destruct (proj2 (VerifyEntity_delegates ex_state 1%positive ex_handler
                       (context_WithDeadline context_Background 1700000090)
                       "u@example.com" H1) ex_verifier eq_refl)
      as (info & err & w & Hev & HV).
    vm_compute in Hev. injection Hev as <- <- <-. exact HV.
Defined.

(** C6 at the deployment's clock: the call returns the signed form of the
    issued token, and [Entity] reads the issued entity back. *)
Lemma SignWebAuthAccessToken_token_witness :
  SignWebAuthAccessToken ex_SignedString ex_Now ex_NewNumericDate
    (Some ex_private_key) "u@example.com" "svc-a" "idp" "k1" ex_state =
    Returns ("RS256:k1.idp:u@example.com:svc-a.805", None) ex_state ∧
  Entity 1%positive
    {| world := world ex_state; calls := [];
       handlers := handlers ex_state;
       claimsHeap :=
         <[1%positive :=
             {| JWTClaims :=
                  accessClaims ex_NewNumericDate (ex_Now (world ex_state))
                    "u@example.com" "svc-a" "idp";
                allowedAudience := "svc-a" |}]> ∅ |} =
    Returns ("u@example.com", None)
      {| world := world ex_state; calls := [];
         handlers := handlers ex_state;
         claimsHeap :=
           <[1%positive :=
               {| JWTClaims :=
                    accessClaims ex_NewNumericDate (ex_Now (world ex_state))
                      "u@example.com" "svc-a" "idp";
                  allowedAudience := "svc-a" |}]> ∅ |}.
Proof.
  pose proof (SignWebAuthAccessToken_token ex_SignedString ex_Now
                ex_NewNumericDate ex_state ex_private_key
                "u@example.com" "svc-a" "idp" "k1") as H.
  cbv zeta in H. split.
  - rewrite (proj1 H). reflexivity.
  - eapply (proj2 (proj2 (proj2 (proj2 (proj2 (proj2 (proj2 (proj2 (proj2
             (proj2 (proj2 (proj2 (proj2 (proj2 (proj2 H)))))))))))))));
      reflexivity.
Defined.

(** C8 with a caller context that has a deadline: the provider sees
    [context.TODO], the verifier sees the caller's context. *)
Lemma contexts_received_witness :
  handlers ex_state !! 1%positive = Some ex_handler ∧
  ∃ s',
    (bind (TokenVerificationKey 1%positive ex_token)
       (λ _, VerifyEntity 1%positive
               (context_WithDeadline context_Background 1700000090)
               "u@example.com")) ex_state =
      Returns (any_string "u@example.com", None) s' ∧
    calls s' =
      [Call_LookupKey context_TODO "k1";
       Call_EntityVerifier
         (context_WithDeadline context_Background 1700000090)
         "u@example.com"].
Proof.
  assert (H1 : handlers ex_state !! 1%positive = Some ex_handler)
    by reflexivity.
  split; [exact H1|].
  exact (proj2 (contexts_received ex_state 1%positive ex_handler ex_provider
                  ex_verifier ex_token "k1"
                  (context_WithDeadline context_Background 1700000090)
                  "u@example.com" H1 eq_refl eq_refl eq_refl)).
Defined.

(** C9 at the deployment: the new claims object is at an unused address
    and carries "svc-a". *)
Lemma CreateClaims_fresh_frame_witness :
  handlers ex_state !! 1%positive = Some ex_handler ∧
  ∃ c s',
    CreateClaims 1%positive ex_state = Returns c s' ∧
    claimsHeap ex_state !! c = None ∧
    claimsHeap s' !! c =
      Some {| JWTClaims := rpc_JWTClaims_zero; allowedAudience := "svc-a" |} ∧
    handlers s' = handlers ex_state.
Proof.
  assert (H1 : handlers ex_state !! 1%positive = Some ex_handler)
    by reflexivity.
  split; [exact H1|].
  destruct (proj1 (CreateClaims_fresh_frame ex_state 1%positive ex_handler H1))
    as (c & s' & HC & Hnew & Hobj & _ & Hh & _).
  exists c, s'. auto.
Defined.

(** C10 at the deployment: the entity of the issuing call is the entity
    read back from the payload of the token just signed. *)
Lemma issued_subject_is_email_witness :
  handlers ex_state !! 1%positive = Some ex_handler ∧
  ∃ s',
    (compact <- SignWebAuthAccessToken ex_SignedString ex_Now
                  ex_NewNumericDate (Some ex_private_key) "u@example.com"
                  "svc-a" "idp" "k1" ;;
     c <- decodeClaims 1%positive
            (accessClaims ex_NewNumericDate 1700000060 "u@example.com"
               "svc-a" "idp") ;;
     e <- Entity c ;;
     ret (compact, e)) ex_state =
      Returns (("RS256:k1.idp:u@example.com:svc-a.805", None),
               ("u@example.com", None)) s'.
Proof.
  assert (H1 : handlers ex_state !! 1%positive = Some ex_handler)
    by reflexivity.
  split; [exact H1|].
  pose proof (issued_subject_is_email ex_SignedString ex_Now
                ex_NewNumericDate ex_state ex_private_key "u@example.com"
                "svc-a" "idp" "k1") as H.
  cbv zeta in H. destruct H as (_ & _ & _ & _ & _ & HE).
  exact (HE 1%positive ex_handler H1).
Defined.



(** No arguments of the issuer, whatever the clock, give a payload with
    subject "u123" and "u@example.com" under "email". *)
Lemma issuer_cannot_split_subject_and_email :
  ¬ ∃ (NewNumericDate : time_Time → jwt_NumericDate) (now : time_Time)
      (entity aud iss keyID : string) (payload : rpc_JWTClaims),
      Claims (Dyn := string)
        (accessToken NewNumericDate now entity aud iss keyID) =
        Claims_JWTClaims payload ∧
      Subject (RegisteredClaims payload) = "u123" ∧
      AuthMetadata payload !! "email" = Some "u@example.com".
Proof.
  intros (nnd & now & entity & aud & iss & keyID & payload
          & Hclaims & Hsub & Hemail).
  injection Hclaims as <-. simpl in Hsub. subst entity.
  rewrite accessClaims_email in Hemail. discriminate.
Qed.

(** ** The further properties at the concrete deployment *)

(** X1 on an empty audience list and on a list with one empty string, the
    second with the empty allowed audience. *)
Lemma Valid_rejects_missing_aud_witness :
  (claimsHeap ex_state_edge !! 1%positive = Some (ex_claims_aud [] "svc-a") ∧
   Valid ex_base_Valid 1%positive ex_state_edge =
     Returns (Some (errors_New "invalid aud")) ex_state_edge) ∧
  (claimsHeap ex_state_edge !! 2%positive = Some (ex_claims_aud [""] "") ∧
   Valid ex_base_Valid 2%positive ex_state_edge =
     Returns (Some (errors_New "invalid aud")) ex_state_edge).
Proof.
  assert (H1 : claimsHeap ex_state_edge !! 1%positive
               = Some (ex_claims_aud [] "svc-a")) by reflexivity.
  assert (H2 : claimsHeap ex_state_edge !! 2%positive
               = Some (ex_claims_aud [""] "")) by reflexivity.
  split; (split; [assumption|]).
  - apply (Valid_rejects_missing_aud ex_base_Valid ex_state_edge 1%positive
             _ H1). simpl. constructor.
  - apply (Valid_rejects_missing_aud ex_base_Valid ex_state_edge 2%positive
             _ H2). simpl. by repeat constructor.
Defined.

(** X2 on an audience list with the allowed audience in second place. *)
Lemma Valid_audience_listed_witness :
  claimsHeap ex_state_edge !! 3%positive =
    Some (ex_claims_aud ["svc-b"; "svc-a"] "svc-a") ∧
  Valid ex_base_Valid 3%positive ex_state_edge = Returns None ex_state_edge.
Proof.
  assert (H3 : claimsHeap ex_state_edge !! 3%positive
               = Some (ex_claims_aud ["svc-b"; "svc-a"] "svc-a"))
    by reflexivity.
  split; [exact H3|].
  destruct (Valid_audience_listed ex_base_Valid ex_state_edge 3%positive
              _ H3) as (_ & _ & Hlisted).
  rewrite Hlisted; [reflexivity|discriminate|].
  simpl. apply list_elem_of_further, list_elem_of_here.
Defined.

(** X3 at the deployment. *)
Lemma unfilled_claims_never_validate_witness :
  handlers ex_state !! 1%positive = Some ex_handler ∧
  ∃ c s',
    CreateClaims 1%positive ex_state = Returns c s' ∧
    Valid ex_base_Valid c s' =
      Returns (Some (errors_New "invalid aud")) s' ∧
    Entity c s' =
      Returns ("", Some (errors_New "missing email in rpc_auth_md")) s'.
Proof.
  assert (H1 : handlers ex_state !! 1%positive = Some ex_handler)
    by reflexivity.
  split; [exact H1|].
  exact (unfilled_claims_never_validate ex_base_Valid ex_state 1%positive
           ex_handler H1).
Defined.

(** X4 on the issued token and a token with algorithm "none", other
    claims and the same key id. *)
Lemma TokenVerificationKey_only_kid_witness :
  Header ex_token !! "kid" = Header ex_token_other !! "kid" ∧
  TokenVerificationKey 1%positive ex_token ex_state =
    TokenVerificationKey 1%positive ex_token_other ex_state.
Proof.
  assert (Hkid : Header ex_token !! "kid" = Header ex_token_other !! "kid")
    by reflexivity.
  split; [exact Hkid|].
  exact (TokenVerificationKey_only_kid ex_state 1%positive ex_token
           ex_token_other Hkid).
Defined.

(** X5 on a token issued with the empty key id, which the provider of the
    deployment does not know. *)
Lemma issued_token_resolves_by_keyID_witness :
  handlers ex_state !! 1%positive = Some ex_handler ∧
  TokenVerificationKey 1%positive
    (accessToken ex_NewNumericDate 1700000000 "u@example.com" "svc-a" "idp"
       "")
    ex_state =
    Returns (any_PublicKey None, Some (collaborator_error "key not found"))
      {| world := world ex_state;
         calls := [Call_LookupKey context_TODO ""];
         handlers := handlers ex_state;
         claimsHeap := claimsHeap ex_state |}.
Proof.
  assert (H1 : handlers ex_state !! 1%positive = Some ex_handler)
    by reflexivity.
  split; [exact H1|].
  exact (issued_token_resolves_by_keyID ex_NewNumericDate ex_state
           1%positive ex_handler ex_provider 1700000000 "u@example.com"
           "svc-a" "idp" "" H1 eq_refl).
Defined.

(** X6 on the payload issued for "svc-a" at its own handler, and on a
    payload issued for the empty audience at a handler that allows it. *)
Lemma issued_audience_decides_witness :
  (claimsHeap ex_state !! 1%positive = Some ex_claims ∧
   Valid ex_base_Valid 1%positive ex_state = Returns None ex_state) ∧
  (allowedAudience
     <$> claimsHeap ex_state_edge !! 4%positive = Some "" ∧
   Valid ex_base_Valid 4%positive ex_state_edge =
     Returns (Some (errors_New "invalid aud")) ex_state_edge).
Proof.
  assert (H1 : claimsHeap ex_state !! 1%positive = Some ex_claims)
    by reflexivity.
  split; (split; [reflexivity|]).
  - destruct (issued_audience_decides ex_base_Valid ex_NewNumericDate
                ex_state 1%positive ex_claims 1700000000 "u@example.com"
                "svc-a" "idp" H1 eq_refl) as [Hpass _].
    rewrite Hpass; [reflexivity|discriminate|reflexivity].
  - refine (proj2 (issued_audience_decides ex_base_Valid ex_NewNumericDate
                     ex_state_edge 4%positive _ 1700000000 "u@example.com"
                     "" "idp" eq_refl eq_refl) _).
    by right.
Defined.

(** X9 on the handler without a key provider. *)
Lemma TokenVerificationKey_without_provider_witness :
  handlers ex_state_edge !! 3%positive = Some ex_handler_no_provider ∧
  TokenVerificationKey 3%positive ex_token ex_state_edge = Panics.
Proof.
  assert (H3 : handlers ex_state_edge !! 3%positive
               = Some ex_handler_no_provider) by reflexivity.
  split; [exact H3|].
  exact (TokenVerificationKey_without_provider ex_state_edge 3%positive
           ex_handler_no_provider ex_token "k1" H3 eq_refl eq_refl).
Defined.

(** X11 on the options of the handler without an entity verifier. *)
Lemma setup_accepts_missing_verifier_witness :
  EntityVerifier (Options ex_handler_unverified) = None ∧
  ∃ a s',
    WithWebOAuthTokenAuthHandler ex_WithAuthHandler
      (Options ex_handler_unverified) ex_state =
      Returns ("oauth-web-auth", a) s' ∧
    VerifyEntity a context_Background "u@example.com" s' =
      Returns (any_nil, Some (status_Error codes_Internal
                                "invalid verify entity configuration")) s'.
Proof.
  split; [reflexivity|].
  exact (setup_accepts_missing_verifier ex_WithAuthHandler ex_state
           (Options ex_handler_unverified) context_Background
           "u@example.com" eq_refl).
Defined.
